(** * The hello-world Flask application of app.py, and its test

    app.py builds a Flask application object, registers the view [home]
    on the rule "/" and, when run as a script, serves it on 0.0.0.0:5000.
    test_app.py drives the application through Flask's test client.

    The three statements of app.py are embedded in [Module App]; the
    parts of Werkzeug and Flask they call (URL map matching, response
    construction, request dispatch, the serving loop) are embedded in
    [Module Werkzeug] and [Module Flask] as far as this program exercises
    them, with the framework's defaults written out. *)

From Stdlib Require Import ZArith String Ascii Strings.Byte List Bool.
From stdpp Require Import base decidable option list strings gmap pretty.

Local Open Scope string_scope.
Local Open Scope Z_scope.

(** ** Python strings

    A Python [str] is represented by the sequence of its UTF-8 bytes. *)

Module Py.

Definition byte_is (c : ascii) (n : N) : bool := N.eqb (N_of_ascii c) n.

Definition ascii_upper (c : ascii) : ascii :=
  let n := N_of_ascii c in
  if ((97 <=? n) && (n <=? 122))%N then ascii_of_N (n - 32) else c.

Definition ascii_lower (c : ascii) : ascii :=
  let n := N_of_ascii c in
  if ((65 <=? n) && (n <=? 90))%N then ascii_of_N (n + 32) else c.

(** The upper-case forms of U+FB00 to U+FB06 (bytes EF AC 80 to 86). *)
Definition ligature_upper (c : ascii) : option string :=
  if byte_is c 128 then Some "FF"
  else if byte_is c 129 then Some "FI"
  else if byte_is c 130 then Some "FL"
  else if byte_is c 131 then Some "FFI"
  else if byte_is c 132 then Some "FFL"
  else if byte_is c 133 || byte_is c 134 then Some "ST"
  else None.

(** [str.upper]. ASCII letters are raised, and the ten code points whose
    upper-case form consists of ASCII letters are replaced by it: U+00DF
    by SS, U+0131 by I, U+017F by S, U+FB00 to U+FB06 by FF, FI, FL, FFI,
    FFL, ST, ST. The bytes of every other code point are kept, where
    Python may put another non-ASCII form: [upper s] is an ASCII string
    exactly when [str.upper] gives one, and is then that string. The
    program compares the result with ASCII strings only. *)
Fixpoint upper (s : string) : string :=
  match s with
  | EmptyString => EmptyString
  | String a s1 =>
      match s1 with
      | EmptyString => String (ascii_upper a) EmptyString
      | String b s2 =>
          if byte_is a 195 && byte_is b 159 then String "S" (String "S" (upper s2))
          else if byte_is a 196 && byte_is b 177 then String "I" (upper s2)
          else if byte_is a 197 && byte_is b 191 then String "S" (upper s2)
          else
            match s2 with
            | EmptyString => String (ascii_upper a) (upper s1)
            | String c s3 =>
                if byte_is a 239 && byte_is b 172 then
                  match ligature_upper c with
                  | Some t => t +:+ upper s3
                  | None => String (ascii_upper a) (upper s1)
                  end
                else String (ascii_upper a) (upper s1)
            end
      end
  end.

(** [str.lower], in the same way: ASCII letters are lowered and U+212A,
    the one code point whose lower-case form is an ASCII letter, becomes
    k; [lower s] is an ASCII string exactly when [str.lower] gives one,
    and is then that string. *)
Fixpoint lower (s : string) : string :=
  match s with
  | EmptyString => EmptyString
  | String a s1 =>
      match s1 with
      | String b (String c s3) =>
          if byte_is a 226 && byte_is b 132 && byte_is c 170
          then String "k" (lower s3)
          else String (ascii_lower a) (lower s1)
      | _ => String (ascii_lower a) (lower s1)
      end
  end.

(** The code points for which [str.isspace] holds, by the length of
    their UTF-8 form: U+0009 to U+000D, U+001C to U+0020; U+0085 and
    U+00A0; U+1680, U+2000 to U+200A, U+2028, U+2029, U+202F, U+205F and
    U+3000. *)
Definition space1 (a : ascii) : bool :=
  let n := N_of_ascii a in
  (((9 <=? n) && (n <=? 13)) || ((28 <=? n) && (n <=? 32)))%N.

Definition space2 (a b : ascii) : bool :=
  byte_is a 194 && (byte_is b 133 || byte_is b 160).

Definition space3 (a b c : ascii) : bool :=
  let n := N_of_ascii c in
  (byte_is a 225 && byte_is b 154 && byte_is c 128)
  || (byte_is a 226 && byte_is b 128
      && (((128 <=? n) && (n <=? 138))%N
          || byte_is c 168 || byte_is c 169 || byte_is c 175))
  || (byte_is a 226 && byte_is b 129 && byte_is c 159)
  || (byte_is a 227 && byte_is b 128 && byte_is c 128).

(** [s.lstrip()] *)
Fixpoint lstrip (s : string) : string :=
  match s with
  | EmptyString => EmptyString
  | String a s1 =>
      if space1 a then lstrip s1
      else
        match s1 with
        | EmptyString => s
        | String b s2 =>
            if space2 a b then lstrip s2
            else
              match s2 with
              | EmptyString => s
              | String c s3 => if space3 a b c then lstrip s3 else s
              end
        end
  end.

(** [s.rstrip()]: what is left of [s] once its trailing white space is
    gone. *)
Fixpoint rstrip (s : string) : string :=
  match s with
  | EmptyString => EmptyString
  | String a s1 =>
      if String.eqb (lstrip s) "" then EmptyString else String a (rstrip s1)
  end.

(** [s.strip()] *)
Definition strip (s : string) : string := rstrip (lstrip s).

(** [s.split(",")] *)
Fixpoint split_comma (s : string) : list string :=
  match s with
  | EmptyString => [EmptyString]
  | String a s1 =>
      if Ascii.eqb a "," then EmptyString :: split_comma s1
      else
        match split_comma s1 with
        | x :: xs => String a x :: xs
        | [] => [String a EmptyString]
        end
  end.

(** [",".join(l)] *)
Fixpoint join_with_comma (l : list string) : string :=
  match l with
  | [] => ""
  | [x] => x
  | x :: rest => x +:+ "," +:+ join_with_comma rest
  end.

(** [s.replace("-", "_")] *)
Fixpoint dash_to_underscore (s : string) : string :=
  match s with
  | EmptyString => EmptyString
  | String a s1 =>
      String (if Ascii.eqb a "-" then "_"%char else a) (dash_to_underscore s1)
  end.

(** [s.lstrip("/")] *)
Fixpoint lstrip_slash (s : string) : string :=
  match s with
  | EmptyString => EmptyString
  | String c s' => if Ascii.eqb c "/" then lstrip_slash s' else s
  end.

(** [s.startswith("/")] *)
Definition starts_with_slash (s : string) : bool :=
  match s with
  | String c _ => Ascii.eqb c "/"
  | EmptyString => false
  end.

(** [s.removeprefix(p)], with [None] when [p] is not a prefix of [s]. *)
Fixpoint strip_prefix (p s : string) : option string :=
  match p, s with
  | EmptyString, _ => Some s
  | String a p', String b s' => if Ascii.eqb a b then strip_prefix p' s' else None
  | String _ _, EmptyString => None
  end.


(** The line feed is not in [s]. *)
Fixpoint no_line_feed (s : string) : bool :=
  match s with
  | EmptyString => true
  | String a s' => negb (byte_is a 10) && no_line_feed s'
  end.

(** [s.encode("utf-8")]: a string of this development is already the
    sequence of its UTF-8 bytes. *)
Definition encode_utf8 (s : string) : list byte := list_byte_of_string s.

(** [", ".join(l)] *)
Fixpoint join_comma (l : list string) : string :=
  match l with
  | [] => ""
  | [x] => x
  | x :: rest => x +:+ ", " +:+ join_comma rest
  end.

End Py.

(** ** Werkzeug: HTTP exceptions, responses and URL routing *)

Module Werkzeug.

(** The HTTP exceptions that routing and dispatch can produce. A
    [RequestRedirect] is kept with the path it redirects to; the URL for
    that path is formed when the response is built. *)
Inductive HTTPException : Type :=
| NotFound
| MethodNotAllowed (valid_methods : gset string)
| RequestRedirect (new_path : string)
| WebsocketMismatch
| InternalServerError.

Definition code (e : HTTPException) : Z :=
  match e with
  | NotFound => 404
  | MethodNotAllowed _ => 405
  | RequestRedirect _ => 308
  | WebsocketMismatch => 400
  | InternalServerError => 500
  end.

(** A request as it reaches the application: REQUEST_METHOD, PATH_INFO,
    the header fields as name and value, and the body. *)
Record Request : Type := {
  method : string;
  path : string;
  req_headers : list (string * string);
  req_body : list byte
}.

Record Response : Type := {
  status_code : Z;
  headers : list (string * string);
  data : list byte
}.

(** [Response(body, status, headers)] of Flask's response class:
    [default_mimetype = "text/html"], charset utf-8, and the
    Content-Length of the encoded body. *)
Definition make_Response (body : list byte) (status : Z)
    (extra : list (string * string)) : Response :=
  {| status_code := status;
     headers := ("Content-Type", "text/html; charset=utf-8") :: extra
                  ++ [("Content-Length", pretty (N.of_nat (List.length body)))];
     data := body |}.

(** [Headers.get(key)]: header names compare without regard to case. *)
Fixpoint get_header (key : string) (hs : list (string * string)) : option string :=
  match hs with
  | [] => None
  | (k, v) :: rest =>
      if String.eqb (Py.lower k) (Py.lower key) then Some v else get_header key rest
  end.

(** [Response.get_app_iter]: no body is sent when REQUEST_METHOD is
    HEAD and for the statuses that carry none. *)
Definition get_app_iter (request_method : string) (r : Response) : list byte :=
  if String.eqb request_method "HEAD"
     || ((100 <=? status_code r) && (status_code r <? 200))
     || (status_code r =? 204) || (status_code r =? 304)
  then [] else data r.

(** *** The environ of a request *)

(** [environ.get("HTTP_" + key, "")]: the server files each header field
    under its name in upper case with dashes turned into underscores, and
    joins the values of repeated fields with a comma (the test client
    joins them with a comma and a space, which the two tests of
    [bind_to_environ] do not tell apart). *)
Definition http_header (key : string) (hs : list (string * string)) : string :=
  Py.join_with_comma
    (snd <$> List.filter
               (fun h => String.eqb (Py.dash_to_underscore (Py.upper (fst h))) key) hs).

(** [Map.bind_to_environ], as far as matching reads it: the adapter is
    bound for a websocket exactly when the Connection header names
    upgrade among its comma-separated values and the Upgrade header is
    websocket, both without regard to case. *)
Definition bind_to_environ (req : Request) : bool :=
  let connection := Py.lower (http_header "CONNECTION" (req_headers req)) in
  let upgrade :=
    existsb (fun v => String.eqb (Py.strip v) "upgrade") (Py.split_comma connection) in
  upgrade && String.eqb (Py.lower (http_header "UPGRADE" (req_headers req))) "websocket".

(** *** Rules *)

(** The two shapes of rule string this program registers: a fixed path,
    and a fixed prefix followed by one [<path:arg>] converter. *)
Inductive RulePattern : Type :=
| Fixed (p : string)
| PathConverter (prefix arg : string).

Record Rule : Type := {
  rule : RulePattern;
  methods : gset string;
  endpoint : string;
  websocket : bool;
  provide_automatic_options : bool
}.

(** [Rule.__init__]: the methods are upper-cased by the caller, HEAD is
    added whenever GET is allowed, and the rule is an HTTP rule unless
    [websocket=True] is passed, which Flask does not. *)
Definition make_Rule (pat : RulePattern) (ms : gset string) (ep : string) : Rule :=
  {| rule := pat;
     methods := if decide ("GET" ∈ ms) then ms ∪ {["HEAD"]} else ms;
     endpoint := ep;
     websocket := false;
     provide_automatic_options := false |}.

Definition set_provide_automatic_options (b : bool) (r : Rule) : Rule :=
  {| rule := rule r;
     methods := methods r;
     endpoint := endpoint r;
     websocket := websocket r;
     provide_automatic_options := b |}.

(** What one rule says about one path (with the map's defaults
    [strict_slashes=True]): it matches and binds the converter's
    argument, it would match with a trailing slash added, or neither. *)
Inductive PathMatch : Type :=
| Matched (view_args : list (string * string))
| SlashRequired
| NoPathMatch.

(** The path converter's part is matched against [[^/].*?\Z], compiled
    without DOTALL: one character that is not a slash, then any
    characters other than the line feed, to the end. *)
Definition path_converter_matches (f : string) : bool :=
  match f with
  | EmptyString => false
  | String a f' => negb (Ascii.eqb a "/") && Py.no_line_feed f'
  end.

Definition match_pattern (pat : RulePattern) (p : string) : PathMatch :=
  match pat with
  | Fixed q =>
      if String.eqb p q then Matched []
      else if String.eqb (p +:+ "/") q then SlashRequired
      else NoPathMatch
  | PathConverter prefix arg =>
      match Py.strip_prefix prefix p with
      | Some f => if path_converter_matches f then Matched [(arg, f)] else NoPathMatch
      | None => NoPathMatch
      end
  end.

Inductive Found : Type :=
| FoundRule (r : Rule) (view_args : list (string * string))
| FoundSlash
| FoundNothing.

(** The matcher's inner [_match] for an adapter whose websocket flag is
    [ws]: the first rule that matches path, method and flag. Of a rule
    that matches the path, the method is tested first: when it is not
    allowed the rule's methods go into [have_match_data]; when it is,
    and the rule's flag differs from the adapter's, [websocket_mismatch]
    is set. A rule that lacks only the trailing slash asks for it when
    method and flag both fit. *)
Fixpoint _match (rules : list Rule) (ws : bool) (p m : string)
    (have_match_data : gset string) (websocket_mismatch : bool)
    : Found * gset string * bool :=
  match rules with
  | [] => (FoundNothing, have_match_data, websocket_mismatch)
  | r :: rest =>
      match match_pattern (rule r) p with
      | Matched args =>
          if decide (m ∈ methods r) then
            if Bool.eqb (websocket r) ws
            then (FoundRule r args, have_match_data, websocket_mismatch)
            else _match rest ws p m have_match_data true
          else _match rest ws p m (have_match_data ∪ methods r) websocket_mismatch
      | SlashRequired =>
          if decide (m ∈ methods r) then
            if Bool.eqb (websocket r) ws
            then (FoundSlash, have_match_data, websocket_mismatch)
            else _match rest ws p m have_match_data websocket_mismatch
          else _match rest ws p m have_match_data websocket_mismatch
      | NoPathMatch => _match rest ws p m have_match_data websocket_mismatch
      end
  end.

(** Werkzeug 3.1 merges each run of slashes into one slash. *)
Fixpoint merge_slashes (s : string) : string :=
  match s with
  | EmptyString => EmptyString
  | String a s' =>
      if Ascii.eqb a "/" && Py.starts_with_slash s' then merge_slashes s'
      else String a (merge_slashes s')
  end.

(** [MapAdapter.match]: the path matched is PATH_INFO with its leading
    slashes collapsed to one. *)
Definition path_part (path_info : string) : string :=
  if String.eqb path_info "" then "" else String "/" (Py.lstrip_slash path_info).

(** [MapAdapter.match] for an adapter whose websocket flag is [ws]. With
    no rule found, allowed methods collected give MethodNotAllowed, else
    a websocket mismatch gives WebsocketMismatch, else NotFound. *)
Definition match_adapter (url_map : list Rule) (ws : bool)
    (path_info request_method : string)
    : HTTPException + Rule * list (string * string) :=
  let p := path_part path_info in
  let m := Py.upper request_method in
  match _match url_map ws p m ∅ false with
  | (FoundRule r args, _, _) => inr (r, args)
  | (FoundSlash, _, _) => inl (RequestRedirect (p +:+ "/"))
  | (FoundNothing, have_match_data, websocket_mismatch) =>
      (* merge_slashes=True: try again with the slashes merged *)
      let p' := merge_slashes p in
      match _match url_map ws p' m have_match_data websocket_mismatch with
      | (FoundRule _ _, _, _) => inl (RequestRedirect p')
      | (FoundSlash, _, _) => inl (RequestRedirect (p' +:+ "/"))
      | (FoundNothing, have_match_data', websocket_mismatch') =>
          if decide (have_match_data' = ∅) then
            if websocket_mismatch' then inl WebsocketMismatch else inl NotFound
          else inl (MethodNotAllowed have_match_data')
      end
  end.

(** [MapAdapter.match] for an adapter bound to an HTTP scheme, that is,
    for a request that does not ask for a websocket. *)
Definition match_ (url_map : list Rule) (path_info request_method : string)
    : HTTPException + Rule * list (string * string) :=
  match_adapter url_map false path_info request_method.

(** [MapAdapter.allowed_methods]: match with the method "--" and read
    the methods off the MethodNotAllowed it raises. *)
Definition allowed_methods (url_map : list Rule) (ws : bool) (path_info : string)
    : gset string :=
  match match_adapter url_map ws path_info "--" with
  | inl (MethodNotAllowed ms) => ms
  | _ => ∅
  end.

End Werkzeug.

(** ** Flask: the application object, request dispatch and the server *)

Module Flask.
Import Werkzeug.

(** Python exceptions that can occur while the application is set up
    or a request is dispatched. *)
Inductive Exception : Type :=
| HTTPError (e : HTTPException)
| AssertionError (msg : string)
| TypeError (msg : string)
| KeyError (key : string).

Inductive Result (A : Type) : Type :=
| Return (a : A)
| Raise (e : Exception).
Arguments Return {A} a.
Arguments Raise {A} e.

Definition bind {A B : Type} (x : Result A) (f : A -> Result B) : Result B :=
  match x with
  | Return a => f a
  | Raise e => Raise e
  end.

(** What lies outside the program text: the files a static folder
    holds (as the response [send_from_directory] builds for one, [None]
    when it raises NotFound); the page the installed Werkzeug renders
    for an HTTP exception; the absolute URL it builds for a redirect of
    a request to a path, out of the scheme, host, script root and query
    string of the request's environ, and the page of [redirect] for that
    URL; and the answer of the socket layer to a bind request ([None] on
    success, [Some errno] for an OSError). *)
Record World : Type := {
  send_from_directory : string -> string -> option Response;
  get_body : HTTPException -> list byte;
  redirect_url : Request -> string -> string;
  redirect_page : string -> list byte;
  os_bind : string -> Z -> option Z
}.

(** What a view function may return. *)
Inductive ResponseValue : Type :=
| RvStr (s : string)
| RvResponse (r : Response).

(** A Python function object used as a view: called with the keyword
    arguments the rule extracted, it returns or raises and may change
    the world. *)
Record ViewFunc : Type := {
  fn_name : string;
  call : list (string * string) -> World -> Result ResponseValue * World
}.

Record Flask : Type := {
  import_name : string;
  static_folder : option string;
  static_url_path : string;
  url_map : list Rule;
  view_functions : gmap string ViewFunc;
  _got_first_request : bool
}.

(** [Flask.add_url_rule], a setup method: it refuses to run once a
    request has been handled. Defaults: methods ("GET",), automatic
    OPTIONS (PROVIDE_AUTOMATIC_OPTIONS is True), endpoint named after
    the view function. *)
Definition add_url_rule (app : Flask) (pat : RulePattern) (ep : option string)
    (view_func : ViewFunc) (ms : option (list string)) : Result Flask :=
  if _got_first_request app
  then Raise (AssertionError "The setup method 'add_url_rule' can no longer be called.")
  else
    let endpoint := default (fn_name view_func) ep in
    let methods : gset string := list_to_set (Py.upper <$> default ["GET"] ms) in
    let automatic_options := bool_decide ("OPTIONS" ∉ methods) in
    let required_methods : gset string :=
      if automatic_options then {["OPTIONS"]} else ∅ in
    let rule_obj :=
      set_provide_automatic_options automatic_options
        (make_Rule pat (methods ∪ required_methods) endpoint) in
    let registered :=
      {| import_name := import_name app;
         static_folder := static_folder app;
         static_url_path := static_url_path app;
         url_map := url_map app ++ [rule_obj];
         view_functions := <[endpoint := view_func]> (view_functions app);
         _got_first_request := _got_first_request app |} in
    match view_functions app !! endpoint with
    | Some old_func =>
        if String.eqb (fn_name old_func) (fn_name view_func) then Return registered
        else Raise (AssertionError "View function mapping is overwriting an existing endpoint function")
    | None => Return registered
    end.

(** The decorator [@app.route(rule, **options)]. *)
Definition route (app : Flask) (pat : RulePattern) (ms : option (list string))
    (f : ViewFunc) : Result Flask :=
  add_url_rule app pat None f ms.

(** [Flask.send_static_file], the view behind the static rule. *)
Definition send_static_file (folder : string) : ViewFunc :=
  {| fn_name := "<lambda>";
     call := fun kwargs w =>
       match kwargs with
       | [(k, filename)] =>
           if String.eqb k "filename" then
             match send_from_directory w folder filename with
             | Some r => (Return (RvResponse r), w)
             | None => (Raise (HTTPError NotFound), w)
             end
           else (Raise (TypeError "unexpected keyword argument"), w)
       | _ => (Raise (TypeError "send_static_file() takes one argument"), w)
       end |}.

(** [Flask(import_name)] with every other argument at its default:
    [static_folder="static"], hence [static_url_path="/static"] and the
    rule "/static/<path:filename>" for endpoint "static". *)
Definition __init__ (import_name : string) : Result Flask :=
  let self :=
    {| import_name := import_name;
       static_folder := Some "static";
       static_url_path := "/static";
       url_map := [];
       view_functions := ∅;
       _got_first_request := false |} in
  match static_folder self with
  | Some folder =>
      add_url_rule self (PathConverter (static_url_path self +:+ "/") "filename")
        (Some "static") (send_static_file folder) None
  | None => Return self
  end.

(** *** Handling one request *)

(** [HTTPException.get_headers], after the Content-Type: Allow for a
    405. *)
Definition get_headers (e : HTTPException) : list (string * string) :=
  match e with
  | MethodNotAllowed valid_methods => [("Allow", Py.join_comma (elements valid_methods))]
  | _ => []
  end.

(** [HTTPException.get_response]. A redirect is answered by
    [redirect(new_url, 308)]: the page for the URL, and the Location
    header, set on the finished response, after its Content-Length. Any
    other exception is answered with its status, its headers and its
    page. *)
Definition get_response (w : World) (req : Request) (e : HTTPException) : Response :=
  match e with
  | RequestRedirect new_path =>
      let location := redirect_url w req new_path in
      let r := make_Response (redirect_page w location) (code e) [] in
      {| status_code := status_code r;
         headers := headers r ++ [("Location", location)];
         data := data r |}
  | _ => make_Response (get_body w e) (code e) (get_headers e)
  end.

(** [Flask.make_response]: a str becomes a 200 response of the default
    mimetype with the string encoded as UTF-8. *)
Definition make_response (rv : ResponseValue) : Response :=
  match rv with
  | RvStr s => make_Response (Py.encode_utf8 s) 200 []
  | RvResponse r => r
  end.

Definition make_default_options_response (app : Flask) (req : Request) : Response :=
  make_Response [] 200
    [("Allow", Py.join_comma
                 (elements (allowed_methods (url_map app) (bind_to_environ req)
                              (path req))))].

(** [Flask.dispatch_request], on the match of the adapter bound to the
    request's environ: a routing exception is re-raised; OPTIONS is
    answered automatically when the rule says so; otherwise the view
    function registered for the rule's endpoint is called. *)
Definition dispatch_request (app : Flask) (req : Request) (w : World)
    : Result ResponseValue * World :=
  match match_adapter (url_map app) (bind_to_environ req) (path req) (method req) with
  | inl e => (Raise (HTTPError e), w)
  | inr (r, view_args) =>
      if provide_automatic_options r && String.eqb (Py.upper (method req)) "OPTIONS"
      then (Return (RvResponse (make_default_options_response app req)), w)
      else
        match view_functions app !! endpoint r with
        | Some f => call f view_args w
        | None => (Raise (KeyError (endpoint r)), w)
        end
  end.

(** [Flask.full_dispatch_request] with no handler, hook or error
    handler registered: an HTTP exception is its own response, any
    other exception becomes a 500. *)
Definition full_dispatch_request (app : Flask) (req : Request) (w : World)
    : Response * World :=
  match dispatch_request app req w with
  | (Return rv, w') => (make_response rv, w')
  | (Raise (HTTPError e), w') => (get_response w' req e, w')
  | (Raise _, w') => (get_response w' req InternalServerError, w')
  end.

Definition set_got_first_request (app : Flask) : Flask :=
  {| import_name := import_name app;
     static_folder := static_folder app;
     static_url_path := static_url_path app;
     url_map := url_map app;
     view_functions := view_functions app;
     _got_first_request := true |}.

(** [Flask.wsgi_app]: the response as it leaves the application, and
    the application object and world it leaves behind. *)
Definition wsgi_app (app : Flask) (req : Request) (w : World)
    : Response * Flask * World :=
  let app' := set_got_first_request app in
  let '(resp, w') := full_dispatch_request app' req w in
  ({| status_code := status_code resp;
      headers := headers resp;
      data := get_app_iter (method req) resp |}, app', w').

(** The URLs for which the test client is modelled: a path that starts
    with one slash and is made of printable ASCII characters other than
    the question mark, the number sign and the percent sign. Such a URL
    has no scheme, host, query or fragment and nothing to unquote, so the
    client passes it on as PATH_INFO unchanged. *)
Fixpoint plain_chars (s : string) : bool :=
  match s with
  | EmptyString => true
  | String a s' =>
      let n := N_of_ascii a in
      ((33 <=? n) && (n <=? 126))%N
      && negb (Ascii.eqb a "?") && negb (Ascii.eqb a "#") && negb (Ascii.eqb a "%")
      && plain_chars s'
  end.

Definition plain_path (url : string) : bool :=
  match url with
  | String a rest => Ascii.eqb a "/" && negb (Py.starts_with_slash rest) && plain_chars rest
  | EmptyString => false
  end.

(** [app.test_client().open(url, method=...)] for a URL that is a plain
    path: one request with no body and none of the headers that routing
    reads, dispatched in-process. *)
Definition test_client_open (app : Flask) (m url : string)
    (plain : plain_path url = true) (w : World) : Response :=
  (wsgi_app app {| method := m; path := url; req_headers := []; req_body := [] |} w).1.1.

Definition test_client_get (app : Flask) (url : string)
    (plain : plain_path url = true) (w : World) : Response :=
  test_client_open app "GET" url plain w.

(** *** The development server *)

Record BaseWSGIServer : Type := {
  host : string;
  port : Z;
  application : Flask
}.

(** What reaches a listening server: a parsed request, or the
    interrupt that ends [serve_forever]. *)
Inductive Event : Type :=
| Incoming (req : Request)
| Interrupt.

(** Where the interpreter stands after the events so far: inside
    [serve_forever], or out of the module body with an exit status. *)
Inductive Process : Type :=
| Serving (srv : BaseWSGIServer)
| Exited (status : Z).

(** [serve_forever]: answer requests one after the other; return only
    when interrupted. *)
Fixpoint serve_forever (srv : BaseWSGIServer) (events : list Event) (w : World)
    : list Response * Process * World :=
  match events with
  | [] => ([], Serving srv, w)
  | Interrupt :: _ => ([], Exited 0, w)
  | Incoming req :: rest =>
      let '(resp, app', w') := wsgi_app (application srv) req w in
      let '(resps, p, w'') :=
        serve_forever {| host := host srv; port := port srv; application := app' |} rest w' in
      (resp :: resps, p, w'')
  end.

(** [Flask.run(host, port)], with no FLASK_* variable set in the
    environment: [make_server] binds the socket, and on an OSError
    exits with status 1; then [serve_forever]. *)
Definition run (app : Flask) (host : string) (port : Z) (events : list Event) (w : World)
    : list Response * Process * World :=
  match os_bind w host port with
  | Some errno => ([], Exited 1, w)
  | None => serve_forever {| host := host; port := port; application := app |} events w
  end.

End Flask.

(** ** app.py *)

Module App.
Import Werkzeug Flask.

(** [def home(): return "Hello World!"]. The function takes no
    parameter: called with a keyword argument it raises TypeError. *)
Definition home : ViewFunc :=
  {| fn_name := "home";
     call := fun kwargs w =>
       match kwargs with
       | [] => (Return (RvStr "Hello World!"), w)
       | _ :: _ => (Raise (TypeError "home() got an unexpected keyword argument"), w)
       end |}.

(** The module variable [app] once lines 9 to 13 have run:
    [app=Flask(__name__)], then [@app.route("/")] applied to [home]. *)
Definition app (__name__ : string) : Result Flask :=
  bind (Flask.__init__ __name__) (fun app => route app (Fixed "/") None home).

(** The whole module body. The guard of line 15 starts the server only
    when the module is the script; an exception that escapes the body
    ends the interpreter with status 1. *)
Definition exec_module (__name__ : string) (events : list Event) (w : World)
    : list Response * Process * World :=
  match app __name__ with
  | Raise _ => ([], Exited 1, w)
  | Return a =>
      if String.eqb __name__ "__main__"
      then run a "0.0.0.0" 5000 events w
      else ([], Exited 0, w)
  end.

(** [python app.py], with no arguments. *)
Definition main (events : list Event) (w : World) : list Response * Process * World :=
  exec_module "__main__" events w.

End App.

(** ** test_app.py *)

Module TestApp.
Import Werkzeug Flask.

(** The bytes literal [b"Hello World!"]. *)
Definition hello_bytes : list byte :=
  [x48; x65; x6c; x6c; x6f; x20; x57; x6f; x72; x6c; x64; x21].

Definition bytes_eqb (a b : list byte) : bool :=
  if List.list_eq_dec Byte.byte_eq_dec a b then true else false.

(** [from app import app], then [test_home()]: either assertion that
    fails raises AssertionError. *)
Definition test_home (w : World) : Result unit :=
  bind (App.app "app") (fun app =>
    let response := test_client_get app "/" eq_refl w in
    if negb (status_code response =? 200)
    then Raise (AssertionError "assert response.status_code==200")
    else if negb (bytes_eqb (data response) hello_bytes)
    then Raise (AssertionError "assert response.data== b'Hello World!'")
    else Return tt).

End TestApp.


(** ** Concrete inputs used by the examples below *)

Module Sample.
Import Werkzeug Flask.

(** A world with an empty static folder, a one-line page for each HTTP
    exception and each redirect, a host named localhost, and a free
    port. *)
Definition world : World :=
  {| send_from_directory := fun _ _ => None;
     get_body := fun e => Py.encode_utf8 (pretty (code e));
     redirect_url := fun _ p => "http://localhost" +:+ p;
     redirect_page := fun url => Py.encode_utf8 url;
     os_bind := fun _ _ => None |}.

(** The same world with the port taken (EADDRINUSE). *)
Definition world_port_in_use : World :=
  {| send_from_directory := fun _ _ => None;
     get_body := fun e => Py.encode_utf8 (pretty (code e));
     redirect_url := fun _ p => "http://localhost" +:+ p;
     redirect_page := fun url => Py.encode_utf8 url;
     os_bind := fun _ _ => Some 98 |}.

Definition request (m p : string) : Request :=
  {| method := m; path := p; req_headers := []; req_body := [] |}.

Definition get_root : Request := request "GET" "/".

(** A GET on "/" that carries headers and a body. *)
Definition get_root_loaded : Request :=
  {| method := "GET"; path := "/";
     req_headers := [("Accept", "text/plain"); ("X-Trace", "7")];
     req_body := [x61; x62; x63] |}.

(** A request that asks for a websocket. *)
Definition upgrade_request (m p : string) : Request :=
  {| method := m; path := p;
     req_headers := [("Connection", "Upgrade"); ("Upgrade", "websocket")];
     req_body := [] |}.

(** The method opt, U+0131, ons, which [str.upper] turns into OPTIONS. *)
Definition dotless_options : string :=
  "opt" +:+ String (ascii_of_N 196) (String (ascii_of_N 177) "ons").

(** A response for a file of the static folder, and a world whose static
    folder holds that file under the name style.css and nothing else. *)
Definition stylesheet : Response :=
  {| status_code := 200;
     headers := [("Content-Type", "text/css; charset=utf-8"); ("Content-Length", "3")];
     data := [x61; x7b; x7d] |}.

Definition world_with_stylesheet : World :=
  {| send_from_directory := fun d f =>
       if String.eqb d "static" && String.eqb f "style.css" then Some stylesheet
       else None;
     get_body := fun e => Py.encode_utf8 (pretty (code e));
     redirect_url := fun _ p => "http://localhost" +:+ p;
     redirect_page := fun url => Py.encode_utf8 url;
     os_bind := fun _ _ => None |}.

End Sample.

(** ** The application object that app.py builds *)

Module Routes.
Import Werkzeug Flask.

(** The methods Flask allows on a rule registered with its defaults. *)
Definition allowed : gset string := {["GET"; "HEAD"; "OPTIONS"]}.

Definition static_rule : Rule :=
  {| rule := PathConverter "/static/" "filename";
     methods := allowed;
     endpoint := "static";
     websocket := false;
     provide_automatic_options := true |}.

Definition root_rule : Rule :=
  {| rule := Fixed "/";
     methods := allowed;
     endpoint := "home";
     websocket := false;
     provide_automatic_options := true |}.

Definition rules : list Rule := [static_rule; root_rule].

Definition views : gmap string ViewFunc :=
  <["home" := App.home]> (<["static" := send_static_file "static"]> ∅).

Definition built (__name__ : string) (started : bool) : Flask :=
  {| import_name := __name__;
     static_folder := Some "static";
     static_url_path := "/static";
     url_map := rules;
     view_functions := views;
     _got_first_request := started |}.

End Routes.

Import Werkzeug Flask.

(** ** Lemmas on strings *)

Section Strings.



Lemma merge_slashes_eq a s :
  merge_slashes (String a s) =
  if Ascii.eqb a "/" && Py.starts_with_slash s then merge_slashes s
  else String a (merge_slashes s).
Proof. reflexivity. Qed.



(** Merging keeps the first character. *)
Lemma merge_slashes_head a s : ∃ t, merge_slashes (String a s) = String a t.
Proof.
  revert a. induction s as [|b s IH]; intros a; rewrite merge_slashes_eq.
  - cbn [Py.starts_with_slash]. rewrite andb_false_r. by eexists.
  - destruct (Ascii.eqb_spec a "/") as [->|]; [|by eexists].
    cbn [andb Py.starts_with_slash].
    destruct (Ascii.eqb_spec b "/") as [->|]; [apply IH|by eexists].
Qed.


Lemma merge_slashes_starts_with_slash f :
  Py.starts_with_slash (merge_slashes f) = Py.starts_with_slash f.
Proof.
  destruct f as [|c f]; [reflexivity|].
  by destruct (merge_slashes_head c f) as [t ->].
Qed.




End Strings.

(** ** Lemmas on routing over the two registered rules *)

Section Routing.

Lemma app_built __name__ : App.app __name__ = Return (Routes.built __name__ false).
Proof. vm_compute. reflexivity. Qed.

Lemma GET_allowed : "GET" ∈ Routes.allowed.
Proof. unfold Routes.allowed. rewrite !elem_of_union, !elem_of_singleton. auto. Qed.


Lemma OPTIONS_allowed : "OPTIONS" ∈ Routes.allowed.
Proof. unfold Routes.allowed. rewrite !elem_of_union, !elem_of_singleton. auto. Qed.

Lemma allowed_nonempty (h : gset string) : h ∪ Routes.allowed ≠ ∅.
Proof.
  intros E. assert ("GET" ∈ h ∪ Routes.allowed) as H.
  { apply elem_of_union. right. exact GET_allowed. }
  rewrite E in H. by apply not_elem_of_empty in H.
Qed.




Lemma _match_root ws m hmd wsm :
  _match Routes.rules ws "/" m hmd wsm =
  if decide (m ∈ Routes.allowed)
  then if ws then (FoundNothing, hmd, true)
       else (FoundRule Routes.root_rule [], hmd, wsm)
  else (FoundNothing, hmd ∪ Routes.allowed, wsm).
Proof. by destruct ws. Qed.


(** What the adapter answers on the routed path "/". *)
Lemma match_adapter_root ws path_info m :
  path_part path_info = "/" →
  match_adapter Routes.rules ws path_info m =
  if decide (Py.upper m ∈ Routes.allowed)
  then if ws then inl WebsocketMismatch else inr (Routes.root_rule, [])
  else inl (MethodNotAllowed Routes.allowed).
Proof.
  intros Hp. unfold match_adapter. rewrite Hp, _match_root.
  case_decide as Hm; [destruct ws; [|reflexivity]|].
  - change (merge_slashes "/") with "/". rewrite _match_root.
    rewrite decide_True by done. by rewrite decide_True.
  - change (merge_slashes "/") with "/". rewrite _match_root.
    rewrite decide_False by done.
    rewrite decide_False by apply allowed_nonempty.
    by replace (∅ ∪ Routes.allowed ∪ Routes.allowed) with Routes.allowed by set_solver.
Qed.

Lemma match_root path_info m :
  path_part path_info = "/" → Py.upper m ∈ Routes.allowed →
  match_adapter Routes.rules false path_info m = inr (Routes.root_rule, []).
Proof. intros Hp Hm. rewrite match_adapter_root by done. by rewrite decide_True. Qed.

Lemma match_root_not_allowed ws path_info m :
  path_part path_info = "/" → Py.upper m ∉ Routes.allowed →
  match_adapter Routes.rules ws path_info m = inl (MethodNotAllowed Routes.allowed).
Proof. intros Hp Hm. rewrite match_adapter_root by done. by rewrite decide_False. Qed.

(** What a rule found can be: only an adapter bound for HTTP finds one,
    for an allowed method; it is the static rule with the file name that
    follows "/static/", or the root rule on the path "/". *)
Lemma _match_found_inv ws p m h wsm r args h' wsm' :
  _match Routes.rules ws p m h wsm = (FoundRule r args, h', wsm') →
  ws = false ∧ m ∈ Routes.allowed ∧
  ((r = Routes.static_rule ∧
    ∃ f, args = [("filename", f)] ∧ Py.strip_prefix "/static/" p = Some f ∧
         path_converter_matches f = true) ∨
   (r = Routes.root_rule ∧ args = [] ∧ p = "/")).
Proof.
  unfold Routes.rules, _match.
  cbn [rule methods websocket Routes.static_rule Routes.root_rule match_pattern].
  destruct ws; cbn [Bool.eqb];
    (destruct (Py.strip_prefix "/static/" p) as [f|];
       [destruct (path_converter_matches f) eqn:Ef|]);
    destruct (String.eqb_spec p "/");
    try destruct (String.eqb (p +:+ "/") "/");
    repeat case_decide; intros [=]; subst;
    (split; [reflexivity|]); (split; [assumption|]); eauto 10.
Qed.

Lemma match_adapter_found_inv ws path_info m r args :
  match_adapter Routes.rules ws path_info m = inr (r, args) →
  ws = false ∧ Py.upper m ∈ Routes.allowed ∧
  ((r = Routes.static_rule ∧
    ∃ f, args = [("filename", f)] ∧
         Py.strip_prefix "/static/" (path_part path_info) = Some f ∧
         path_converter_matches f = true) ∨
   (r = Routes.root_rule ∧ args = [] ∧ path_part path_info = "/")).
Proof.
  unfold match_adapter.
  destruct (_match Routes.rules ws (path_part path_info) (Py.upper m) ∅ false)
    as [[[r' args'| |] hmd] wsm] eqn:E; [| done |].
  - intros [=]; subst. by eapply _match_found_inv.
  - destruct (_match Routes.rules _ _ _ hmd wsm) as [[[| |] ?] []]; [done..| |];
      case_decide; done.
Qed.

(** A request reaches the root rule only on the routed path "/" and with
    an allowed method. *)
Lemma match_home_inv ws path_info m r args :
  match_adapter Routes.rules ws path_info m = inr (r, args) → endpoint r = "home" →
  path_part path_info = "/" ∧ Py.upper m ∈ Routes.allowed ∧ args = [] ∧ ws = false.
Proof.
  intros H Hep.
  apply match_adapter_found_inv in H as (-> & Hm & [(-> & _)|(-> & -> & Hp)]);
    [discriminate Hep | done].
Qed.

(** A request reaches the static rule only on a routed path that begins
    with "/static/", and the file name is what follows. *)
Lemma match_static_inv ws path_info m r args :
  match_adapter Routes.rules ws path_info m = inr (r, args) → endpoint r = "static" →
  ∃ f, args = [("filename", f)] ∧
       Py.strip_prefix "/static/" (path_part path_info) = Some f.
Proof.
  intros H Hep.
  apply match_adapter_found_inv in H as (_ & _ & [(_ & f & -> & Hf & _)|(-> & _)]);
    [eauto | discriminate Hep].
Qed.

(** Routing raises NotFound, MethodNotAllowed, WebsocketMismatch or a
    redirect, never a server error. *)
Lemma match_error_code rules ws path_info m e :
  match_adapter rules ws path_info m = inl e →
  code e = 404 ∨ code e = 405 ∨ code e = 308 ∨ code e = 400.
Proof.
  unfold match_adapter.
  destruct (_match rules ws (path_part path_info) (Py.upper m) ∅ false)
    as [[[| |] hmd] wsm]; [done | intros [=<-]; auto |].
  destruct (_match rules _ _ _ hmd wsm) as [[[| |] hmd'] []];
    try (intros [=<-]; auto); case_decide; intros [=<-]; auto.
Qed.

(** Routing reads PATH_INFO through [path_part] only. *)
Lemma match_path_part rules ws p p' m :
  path_part p = path_part p' → match_adapter rules ws p m = match_adapter rules ws p' m.
Proof. intros H. unfold match_adapter. by rewrite H. Qed.

End Routing.

(** ** Lemmas on dispatch *)

(** Reads the fields of the application object as built. *)
Ltac built_fields :=
  cbn [set_got_first_request Routes.built import_name static_folder
       static_url_path url_map view_functions].

Section Dispatch.

Lemma built_inv __name__ a :
  App.app __name__ = Return a → a = Routes.built __name__ false.
Proof. rewrite app_built. by intros [=]. Qed.

(** On "/", an allowed method other than OPTIONS runs [home], unless a
    websocket is asked for. *)
Lemma dispatch_root_view __name__ st req w :
  path_part (path req) = "/" →
  Py.upper (method req) ∈ Routes.allowed →
  Py.upper (method req) ≠ "OPTIONS" →
  bind_to_environ req = false →
  dispatch_request (Routes.built __name__ st) req w
  = (Return (RvStr "Hello World!"), w).
Proof.
  intros Hp Hm Ho Hws. unfold dispatch_request.
  cbn [url_map Routes.built]. rewrite Hws, match_root by done.
  cbn [provide_automatic_options Routes.root_rule andb].
  destruct (String.eqb_spec (Py.upper (method req)) "OPTIONS"); [done|].
  reflexivity.
Qed.

(** No view of this application changes the world. *)
Lemma dispatch_world __name__ st req w :
  (dispatch_request (Routes.built __name__ st) req w).2 = w.
Proof.
  unfold dispatch_request. cbn [url_map Routes.built].
  destruct (match_adapter Routes.rules (bind_to_environ req) (path req) (method req))
    as [e|[r args]] eqn:E; [reflexivity|].
  apply match_adapter_found_inv in E
    as (_ & _ & [(-> & f & -> & _)|(-> & -> & _)]);
    cbn [provide_automatic_options Routes.root_rule Routes.static_rule andb];
    destruct (String.eqb (Py.upper (method req)) "OPTIONS"); try reflexivity.
  change (view_functions (Routes.built __name__ st) !! endpoint Routes.static_rule)
    with (Some (send_static_file "static")).
  cbn. by destruct (send_from_directory w "static" f).
Qed.

Lemma full_dispatch_world __name__ st req w :
  (full_dispatch_request (Routes.built __name__ st) req w).2 = w.
Proof.
  unfold full_dispatch_request.
  pose proof (dispatch_world __name__ st req w) as H.
  destruct (dispatch_request _ req w) as [[rv|[]] w']; simpl in *; by subst.
Qed.

Lemma wsgi_app_built __name__ st req w :
  wsgi_app (Routes.built __name__ st) req w
  = ((wsgi_app (Routes.built __name__ false) req w).1.1, Routes.built __name__ true, w).
Proof.
  unfold wsgi_app. built_fields.
  pose proof (full_dispatch_world __name__ true req w) as H.
  destruct (full_dispatch_request _ req w) as [resp w']. simpl in *. by subst.
Qed.

Lemma wsgi_app_root_view __name__ st req w :
  path_part (path req) = "/" →
  Py.upper (method req) ∈ Routes.allowed →
  Py.upper (method req) ≠ "OPTIONS" →
  bind_to_environ req = false →
  (wsgi_app (Routes.built __name__ st) req w).1.1
  = {| status_code := 200;
       headers := [("Content-Type", "text/html; charset=utf-8");
                   ("Content-Length", "12")];
       data := get_app_iter (method req)
                 (make_Response (Py.encode_utf8 "Hello World!") 200 []) |}.
Proof.
  intros Hp Hm Ho Hws. unfold wsgi_app, full_dispatch_request.
  built_fields.
  erewrite (dispatch_root_view __name__ true) by done. reflexivity.
Qed.

Lemma status_code_get_response w req e :
  status_code (get_response w req e) = code e.
Proof. by destruct e. Qed.

(** The response to a routing error, in full. *)
Lemma wsgi_app_error __name__ st req w e :
  match_adapter Routes.rules (bind_to_environ req) (path req) (method req) = inl e →
  (wsgi_app (Routes.built __name__ st) req w).1.1
  = {| status_code := code e;
       headers := headers (get_response w req e);
       data := get_app_iter (method req) (get_response w req e) |}.
Proof.
  intros H. unfold wsgi_app, full_dispatch_request, dispatch_request.
  built_fields. rewrite H. cbn [fst]. by rewrite status_code_get_response.
Qed.


(** The response to a GET on "/" that asks for no websocket, in full. *)
Lemma get_root_response __name__ st req w :
  method req = "GET" → path req = "/" → bind_to_environ req = false →
  (wsgi_app (Routes.built __name__ st) req w).1.1
  = {| status_code := 200;
       headers := [("Content-Type", "text/html; charset=utf-8");
                   ("Content-Length", "12")];
       data := TestApp.hello_bytes |}.
Proof.
  intros Hm Hp Hws. rewrite wsgi_app_root_view; rewrite ?Hm, ?Hp;
    [reflexivity | reflexivity | exact GET_allowed | discriminate | exact Hws].
Qed.

(** The response to a request on "/" that asks for a websocket, with a
    method the rule allows. *)
Lemma websocket_root_response __name__ st req w :
  path_part (path req) = "/" → Py.upper (method req) ∈ Routes.allowed →
  bind_to_environ req = true →
  (wsgi_app (Routes.built __name__ st) req w).1.1
  = {| status_code := 400;
       headers := [("Content-Type", "text/html; charset=utf-8");
                   ("Content-Length",
                    pretty (N.of_nat (List.length (get_body w WebsocketMismatch))))];
       data := get_app_iter (method req)
                 (make_Response (get_body w WebsocketMismatch) 400 []) |}.
Proof.
  intros Hp Hm Hws.
  rewrite (wsgi_app_error _ _ _ _ WebsocketMismatch); [reflexivity|].
  rewrite Hws, match_adapter_root by done. by rewrite decide_True.
Qed.

End Dispatch.

(** ** Lemmas on the serving loop *)

Section Serving.

(** The server answers each request from the application as built: the
    only trace a request leaves is the first-request latch. *)
Lemma serve_forever_requests __name__ st h p reqs w :
  serve_forever {| host := h; port := p; application := Routes.built __name__ st |}
    (Incoming <$> reqs) w
  = ((λ req, (wsgi_app (Routes.built __name__ false) req w).1.1) <$> reqs,
     Serving {| host := h; port := p;
                application := match reqs with
                               | [] => Routes.built __name__ st
                               | _ :: _ => Routes.built __name__ true
                               end |},
     w).
Proof.
  revert st. induction reqs as [|req reqs IH]; intros st; [reflexivity|].
  cbn [fmap list_fmap serve_forever application host port].
  rewrite wsgi_app_built.
  change (list_fmap _ _ Incoming reqs) with (Incoming <$> reqs).
  rewrite IH. by destruct reqs.
Qed.

Lemma serve_forever_interrupt __name__ st h p reqs rest w :
  serve_forever {| host := h; port := p; application := Routes.built __name__ st |}
    ((Incoming <$> reqs) ++ Interrupt :: rest) w
  = ((λ req, (wsgi_app (Routes.built __name__ false) req w).1.1) <$> reqs, Exited 0, w).
Proof.
  revert st. induction reqs as [|req reqs IH]; intros st; [reflexivity|].
  cbn [fmap list_fmap serve_forever application host port List.app].
  rewrite wsgi_app_built.
  change (list_fmap _ _ Incoming reqs) with (Incoming <$> reqs).
  by rewrite IH.
Qed.

End Serving.

(** ** Lemmas on the static rule *)

Section Static.

Lemma static_path_part f : path_part ("/static/" +:+ f) = "/static/" +:+ f.
Proof. reflexivity. Qed.

Lemma static_match_pattern f :
  path_converter_matches f = true →
  match_pattern (PathConverter "/static/" "filename") ("/static/" +:+ f)
  = Matched [("filename", f)].
Proof.
  intros Hf. unfold match_pattern.
  assert (Py.strip_prefix "/static/" ("/static/" +:+ f) = Some f) as -> by reflexivity.
  by rewrite Hf.
Qed.


(** A request without headers does not ask for a websocket. *)
Lemma no_headers_no_websocket req : req_headers req = [] → bind_to_environ req = false.
Proof. intros H. unfold bind_to_environ. by rewrite H. Qed.

(** An HTTP request on a file name under "/static/", with an allowed
    method, reaches the static rule with that file name. *)
Lemma match_static path_info m f :
  path_part path_info = "/static/" +:+ f →
  path_converter_matches f = true →
  Py.upper m ∈ Routes.allowed →
  match_adapter Routes.rules false path_info m
  = inr (Routes.static_rule, [("filename", f)]).
Proof.
  intros Hp Hf Hm. unfold match_adapter. rewrite Hp.
  unfold Routes.rules, _match.
  cbn [rule methods websocket Routes.static_rule Routes.root_rule].
  rewrite static_match_pattern by done.
  by rewrite decide_True.
Qed.



End Static.

(** ** Lemmas on the responses on "/" *)

Section Root.

Lemma allowed_methods_root ws path_info :
  path_part path_info = "/" → allowed_methods Routes.rules ws path_info = Routes.allowed.
Proof.
  intros Hp. unfold allowed_methods. rewrite match_root_not_allowed; [done..|].
  change (Py.upper "--") with "--". unfold Routes.allowed.
  rewrite !elem_of_union, !elem_of_singleton. by intros [[|]|].
Qed.


(** The automatic answer to OPTIONS on "/". *)
Lemma options_root_response __name__ st req w :
  path_part (path req) = "/" → Py.upper (method req) = "OPTIONS" →
  bind_to_environ req = false →
  (wsgi_app (Routes.built __name__ st) req w).1.1
  = {| status_code := 200;
       headers := [("Content-Type", "text/html; charset=utf-8");
                   ("Allow", Py.join_comma (elements Routes.allowed));
                   ("Content-Length", "0")];
       data := get_app_iter (method req)
                 (make_Response [] 200
                    [("Allow", Py.join_comma (elements Routes.allowed))]) |}.
Proof.
  intros Hp Hm Hws.
  unfold wsgi_app, full_dispatch_request, dispatch_request. built_fields.
  rewrite Hws, match_root; [|done|rewrite Hm; exact OPTIONS_allowed].
  cbn [provide_automatic_options Routes.root_rule andb]. rewrite Hm.
  change (String.eqb "OPTIONS" "OPTIONS") with true. cbv iota.
  unfold make_default_options_response. built_fields.
  rewrite allowed_methods_root by done. reflexivity.
Qed.

(** On the routed path "/" the response is a function of the method,
    the headers and the world; the path itself is read no further. *)
Lemma root_response_eq __name__ st req req' w :
  path_part (path req) = "/" → path_part (path req') = "/" →
  method req' = method req → req_headers req' = req_headers req →
  (wsgi_app (Routes.built __name__ st) req' w).1.1
  = (wsgi_app (Routes.built __name__ st) req w).1.1.
Proof.
  intros Hp Hp' Hm Hh.
  assert (bind_to_environ req' = bind_to_environ req) as Hb
    by (unfold bind_to_environ; by rewrite Hh).
  destruct (decide (Py.upper (method req) ∈ Routes.allowed)) as [Ha|Ha].
  - destruct (bind_to_environ req) eqn:Hws.
    + rewrite !websocket_root_response; rewrite ?Hm, ?Hb; done.
    + destruct (decide (Py.upper (method req) = "OPTIONS")) as [Ho|Ho].
      * rewrite !options_root_response; rewrite ?Hm, ?Hb; done.
      * rewrite !wsgi_app_root_view; rewrite ?Hm, ?Hb; done.
  - rewrite !(wsgi_app_error _ _ _ _ (MethodNotAllowed Routes.allowed));
      rewrite ?Hm, ?Hb; [done|by apply match_root_not_allowed..].
Qed.

End Root.

(** ** The statements of the specification *)

(** X1. test_app.py: both assertions of [test_home] hold, in every
    world: whatever the static folder holds and whether or not the port
    is free, the test returns without raising. *)
Lemma test_home_passes w : TestApp.test_home w = Return ().
Proof.
  unfold TestApp.test_home. rewrite app_built. unfold bind, test_client_get, test_client_open.
  rewrite wsgi_app_root_view; [reflexivity| reflexivity | | | reflexivity].
  - exact GET_allowed.
  - discriminate.
Qed.












(** C5. Run as a script with no arguments, and granted the socket by
    the operating system, the program listens on host 0.0.0.0, port
    5000, and answers every request that arrives, one response each; it
    is still serving after any number of requests, and leaves the
    serving loop only at an interrupt from outside. *)
Theorem C5_main_binds_and_serves (w : World) (reqs : list Request) (rest : list Event) :
  os_bind w "0.0.0.0" 5000 = None →
  (∃ a, App.main (Incoming <$> reqs) w
        = ((λ req, (wsgi_app a req w).1.1) <$> reqs,
           Serving {| host := "0.0.0.0"; port := 5000;
                      application := match reqs with
                                     | [] => a
                                     | _ :: _ => set_got_first_request a
                                     end |}, w) ∧
        App.app "__main__" = Return a) ∧
  (App.main ((Incoming <$> reqs) ++ Interrupt :: rest) w).1.2 = Exited 0.
Proof.
  intros Hb. unfold App.main, App.exec_module. rewrite app_built.
  change (String.eqb "__main__" "__main__") with true. cbv iota.
  unfold run. rewrite Hb. split.
  - exists (Routes.built "__main__" false). split; [|reflexivity].
    rewrite serve_forever_requests. by destruct reqs.
  - by rewrite serve_forever_interrupt.
Qed.

Lemma C5_main_binds_and_serves_witness :
  os_bind Sample.world "0.0.0.0" 5000 = None ∧
  (App.main (Incoming <$> [Sample.get_root; Sample.request "GET" "/missing"])
     Sample.world).1.2
  = Serving {| host := "0.0.0.0"; port := 5000;
               application := Routes.built "__main__" true |}.
Proof.
  split; [reflexivity|].
  destruct (C5_main_binds_and_serves Sample.world
              [Sample.get_root; Sample.request "GET" "/missing"] [] eq_refl)
    as [(a & H & Ha) _].
  rewrite H. cbn [fst snd].
  assert (App.app "__main__" = Return (Routes.built "__main__" false)) as Hb
    by (vm_compute; reflexivity).
  rewrite Hb in Ha. injection Ha as <-. reflexivity.
Defined.

(** C6. [home] is total and has no effect: called as the dispatcher
    calls it, with no argument, it returns "Hello World!" and leaves the
    world as it found it, in every world; and every request that the URL
    map routes to [home] is dispatched that way, so the call never
    raises. *)
Theorem C6_home_total_pure (__name__ : string) (a : Flask) (w : World) (req : Request)
    (r : Rule) (args : list (string * string)) :
  App.app __name__ = Return a →
  match_ (url_map a) (path req) (method req) = inr (r, args) →
  endpoint r = "home" →
  args = [] ∧
  view_functions a !! endpoint r = Some App.home ∧
  call App.home args w = (Return (RvStr "Hello World!"), w) ∧
  ∀ w', call App.home [] w' = (Return (RvStr "Hello World!"), w').
Proof.
  intros Ha Hm Hep. apply built_inv in Ha as ->.
  destruct (match_home_inv _ _ _ _ _ Hm Hep) as (_ & _ & -> & _).
  rewrite Hep. by repeat split.
Qed.

Lemma C6_home_total_pure_witness :
  App.app "app" = Return (Routes.built "app" false) ∧
  match_ (url_map (Routes.built "app" false)) (path Sample.get_root_loaded)
    (method Sample.get_root_loaded) = inr (Routes.root_rule, []) ∧
  endpoint Routes.root_rule = "home" ∧
  call App.home [] Sample.world = (Return (RvStr "Hello World!"), Sample.world).
Proof.
  assert (App.app "app" = Return (Routes.built "app" false)) as Ha
    by (vm_compute; reflexivity).
  assert (match_ (url_map (Routes.built "app" false)) (path Sample.get_root_loaded)
            (method Sample.get_root_loaded) = inr (Routes.root_rule, [])) as Hm
    by (vm_compute; reflexivity).
  split; [exact Ha|]. split; [exact Hm|]. split; [reflexivity|].
  exact (proj1 (proj2 (proj2 (C6_home_total_pure "app" _ Sample.world
                                Sample.get_root_loaded _ _ Ha Hm eq_refl)))).
Defined.

(** C7. The system keeps no state across requests: in any sequence of
    requests served one after the other, each response is the response
    the freshly built application gives to that request alone; the world
    is left as it was, and of the application object only the
    first-request latch changes, which no response reads (the routes and
    the views stay as registered). *)
Theorem C7_stateless_across_requests (__name__ : string) (a : Flask) (w : World)
    (reqs : list Request) (h : string) (p : Z) :
  App.app __name__ = Return a →
  let a' := match reqs with [] => a | _ :: _ => set_got_first_request a end in
  serve_forever {| host := h; port := p; application := a |} (Incoming <$> reqs) w
  = ((λ req, (wsgi_app a req w).1.1) <$> reqs,
     Serving {| host := h; port := p; application := a' |}, w) ∧
  url_map a' = url_map a ∧ view_functions a' = view_functions a ∧
  ∀ req, wsgi_app a' req w = wsgi_app a req w.
Proof.
  intros Ha. apply built_inv in Ha as ->. cbv zeta.
  split; [rewrite serve_forever_requests|]; by destruct reqs.
Qed.

Lemma C7_stateless_across_requests_witness :
  App.app "app" = Return (Routes.built "app" false) ∧
  (serve_forever {| host := "0.0.0.0"; port := 5000;
                    application := Routes.built "app" false |}
     (Incoming <$> [Sample.request "POST" "/"; Sample.get_root;
                    Sample.request "GET" "/missing"; Sample.get_root_loaded])
     Sample.world).1.1
  = (λ req, (wsgi_app (Routes.built "app" false) req Sample.world).1.1)
      <$> [Sample.request "POST" "/"; Sample.get_root;
           Sample.request "GET" "/missing"; Sample.get_root_loaded].
Proof.
  assert (App.app "app" = Return (Routes.built "app" false)) as Ha
    by (vm_compute; reflexivity).
  split; [exact Ha|].
  destruct (C7_stateless_across_requests "app" _ Sample.world
              [Sample.request "POST" "/"; Sample.get_root;
               Sample.request "GET" "/missing"; Sample.get_root_loaded]
              "0.0.0.0" 5000 Ha) as (H & _).
  rewrite H. reflexivity.
Defined.




(** C10. The response to a GET on "/" carries the Content-Type
    "text/html; charset=utf-8": the string that [home] returns is wrapped
    in a response of the default, HTML, mimetype. *)
Theorem C10_get_root_content_type (__name__ : string) (a : Flask) (w : World)
    (req : Request) :
  App.app __name__ = Return a →
  method req = "GET" → path req = "/" →
  get_header "Content-Type" (headers (wsgi_app a req w).1.1)
  = Some "text/html; charset=utf-8".
Proof.
  intros Ha Hm Hp. apply built_inv in Ha as ->.
  destruct (bind_to_environ req) eqn:Hws.
  - rewrite websocket_root_response; rewrite ?Hm, ?Hp;
      [reflexivity | reflexivity | exact GET_allowed | exact Hws].
  - by rewrite get_root_response.
Qed.

Lemma C10_get_root_content_type_witness :
  App.app "app" = Return (Routes.built "app" false) ∧
  method Sample.get_root = "GET" ∧ path Sample.get_root = "/" ∧
  get_header "Content-Type"
    (headers (wsgi_app (Routes.built "app" false) Sample.get_root Sample.world).1.1)
  = Some "text/html; charset=utf-8".
Proof.
  assert (App.app "app" = Return (Routes.built "app" false)) as Ha
    by (vm_compute; reflexivity).
  split; [exact Ha|]. split; [reflexivity|]. split; [reflexivity|].
  exact (C10_get_root_content_type "app" _ Sample.world Sample.get_root
           Ha eq_refl eq_refl).
Defined.


(** ** Further properties of the two files *)

(** X2. Imported under any name other than "__main__" (as test_app.py
    imports it), the module starts no server: whatever arrives and
    whatever the state of the port, nothing is answered, no bind is
    asked for and the module body ends normally. *)
Theorem X2_import_starts_no_server (__name__ : string) (events : list Event) (w : World) :
  __name__ ≠ "__main__" →
  App.exec_module __name__ events w = ([], Exited 0, w) ∧
  ∃ a, App.app __name__ = Return a ∧ _got_first_request a = false.
Proof.
  intros Hn. unfold App.exec_module. rewrite app_built.
  destruct (String.eqb_spec __name__ "__main__") as [|_]; [done|].
  split; [reflexivity|]. by eexists.
Qed.

Lemma X2_import_starts_no_server_witness :
  "app" ≠ "__main__" ∧
  App.exec_module "app" [Incoming Sample.get_root] Sample.world_port_in_use
  = ([], Exited 0, Sample.world_port_in_use).
Proof.
  assert ("app" ≠ "__main__") as Hn by discriminate.
  split; [exact Hn|].
  exact (proj1 (X2_import_starts_no_server "app" [Incoming Sample.get_root]
                  Sample.world_port_in_use Hn)).
Defined.

(** X3. Outside the static folder no request makes the application
    fail: dispatch returns a value or raises an HTTP exception, never a
    TypeError or a KeyError, and the status of the response is 200, 308,
    400, 404 or 405, never 500. *)
Theorem X3_no_server_error (__name__ : string) (a : Flask) (req : Request)
    (w : World) :
  App.app __name__ = Return a →
  Py.strip_prefix "/static/" (path_part (path req)) = None →
  ((∃ rv, (dispatch_request a req w).1 = Return rv) ∨
   (∃ e, (dispatch_request a req w).1 = Raise (HTTPError e))) ∧
  (status_code (wsgi_app a req w).1.1 = 200 ∨
   status_code (wsgi_app a req w).1.1 = 308 ∨
   status_code (wsgi_app a req w).1.1 = 400 ∨
   status_code (wsgi_app a req w).1.1 = 404 ∨
   status_code (wsgi_app a req w).1.1 = 405).
Proof.
  intros Ha Hs. apply built_inv in Ha as ->.
  unfold wsgi_app, full_dispatch_request.
  change (set_got_first_request (Routes.built __name__ false))
    with (Routes.built __name__ true).
  change (dispatch_request (Routes.built __name__ true) req w)
    with (dispatch_request (Routes.built __name__ false) req w).
  unfold dispatch_request. cbn [url_map Routes.built].
  destruct (match_adapter Routes.rules (bind_to_environ req) (path req) (method req))
    as [e|[r args]] eqn:E.
  - split; [right; by eexists|].
    cbn [fst status_code]. rewrite status_code_get_response.
    destruct (match_error_code _ _ _ _ _ E) as [-> | [-> | [-> | ->]]]; auto.
  - destruct (match_adapter_found_inv _ _ _ _ _ E)
      as (_ & _ & [(_ & f & _ & Hf & _)|(-> & -> & _)]).
    + by rewrite Hs in Hf.
    + cbn [provide_automatic_options Routes.root_rule andb].
      destruct (String.eqb (Py.upper (method req)) "OPTIONS");
        (split; [left; by eexists|by left]).
Qed.

Lemma X3_no_server_error_witness :
  App.app "app" = Return (Routes.built "app" false) ∧
  Py.strip_prefix "/static/" (path_part (path (Sample.upgrade_request "PUT" "/admin/")))
    = None ∧
  status_code (wsgi_app (Routes.built "app" false) (Sample.upgrade_request "PUT" "/admin/")
                 Sample.world).1.1 ≠ 500.
Proof.
  assert (App.app "app" = Return (Routes.built "app" false)) as Ha
    by (vm_compute; reflexivity).
  split; [exact Ha|]. split; [reflexivity|].
  destruct (proj2 (X3_no_server_error "app" _ (Sample.upgrade_request "PUT" "/admin/")
                     Sample.world Ha eq_refl)) as [H|[H|[H|[H|H]]]];
    rewrite H; discriminate.
Defined.











(** X9. A PATH_INFO made of slashes only, however many, is routed as
    "/": whatever the method, the request gets the response that the
    same request on "/" gets. *)
Theorem X9_leading_slashes_collapse (__name__ : string) (a : Flask) (w : World)
    (req : Request) :
  App.app __name__ = Return a →
  path req ≠ "" → Py.lstrip_slash (path req) = "" →
  (wsgi_app a req w).1.1
  = (wsgi_app a {| method := method req; path := "/";
                   req_headers := req_headers req; req_body := req_body req |} w).1.1.
Proof.
  intros Ha Hne Hs. apply built_inv in Ha as ->.
  assert (path_part (path req) = "/") as Hp.
  { unfold path_part. rewrite Hs. by destruct (String.eqb_spec (path req) ""). }
  by apply root_response_eq.
Qed.

Lemma X9_leading_slashes_collapse_witness :
  App.app "app" = Return (Routes.built "app" false) ∧
  path (Sample.request "GET" "///") ≠ "" ∧
  Py.lstrip_slash (path (Sample.request "GET" "///")) = "" ∧
  (wsgi_app (Routes.built "app" false) (Sample.request "GET" "///") Sample.world).1.1
  = (wsgi_app (Routes.built "app" false) Sample.get_root Sample.world).1.1.
Proof.
  assert (App.app "app" = Return (Routes.built "app" false)) as Ha
    by (vm_compute; reflexivity).
  assert (path (Sample.request "GET" "///") ≠ "") as Hne by discriminate.
  split; [exact Ha|]. split; [exact Hne|]. split; [reflexivity|].
  exact (X9_leading_slashes_collapse "app" _ Sample.world
           (Sample.request "GET" "///") Ha Hne eq_refl).
Defined.


(** X10. The application also serves the static folder: a GET without
    header fields on "/static/" followed by a file name (a name the path
    converter accepts: not empty, not starting with a slash, with no line
    feed after its first character) is answered with the response built
    for that file when the folder holds it, status and headers
    unchanged, and with 404 when it does not; either way the world is
    left as it was. *)
Theorem X10_static_file_served (__name__ : string) (a : Flask) (w : World)
    (req : Request) (f : string) :
  App.app __name__ = Return a →
  method req = "GET" → path req = "/static/" +:+ f →
  req_headers req = [] →
  path_converter_matches f = true →
  (∀ r, send_from_directory w "static" f = Some r →
        status_code (wsgi_app a req w).1.1 = status_code r ∧
        headers (wsgi_app a req w).1.1 = headers r ∧
        data (wsgi_app a req w).1.1 = get_app_iter "GET" r) ∧
  (send_from_directory w "static" f = None →
   status_code (wsgi_app a req w).1.1 = 404 ∧
   data (wsgi_app a req w).1.1 = get_body w NotFound) ∧
  (wsgi_app a req w).2 = w.
Proof.
  intros Ha Hm Hp Hh Hf. apply built_inv in Ha as ->.
  apply no_headers_no_websocket in Hh as Hws.
  split; [|split]; [| |by rewrite wsgi_app_built];
    intros; unfold wsgi_app, full_dispatch_request, dispatch_request; built_fields;
    (rewrite Hws, (match_static _ _ f); rewrite ?Hm, ?Hp;
       [| apply static_path_part | done | exact GET_allowed]);
    cbn [provide_automatic_options Routes.static_rule andb];
    change (String.eqb (Py.upper "GET") "OPTIONS") with false; cbv iota;
    change (Routes.views !! endpoint Routes.static_rule)
      with (Some (send_static_file "static"));
    cbn [call send_static_file]; change (String.eqb "filename" "filename") with true;
    cbv iota.
  - rewrite H. by cbn.
  - rewrite H. by cbn.
Qed.

Lemma X10_static_file_served_witness :
  App.app "app" = Return (Routes.built "app" false) ∧
  method (Sample.request "GET" "/static/style.css") = "GET" ∧
  path (Sample.request "GET" "/static/style.css") = "/static/" +:+ "style.css" ∧
  req_headers (Sample.request "GET" "/static/style.css") = [] ∧
  path_converter_matches "style.css" = true ∧
  send_from_directory Sample.world_with_stylesheet "static" "style.css"
    = Some Sample.stylesheet ∧
  data (wsgi_app (Routes.built "app" false) (Sample.request "GET" "/static/style.css")
          Sample.world_with_stylesheet).1.1 = data Sample.stylesheet.
Proof.
  assert (App.app "app" = Return (Routes.built "app" false)) as Ha
    by (vm_compute; reflexivity).
  assert (send_from_directory Sample.world_with_stylesheet "static" "style.css"
          = Some Sample.stylesheet) as Hr by reflexivity.
  split; [exact Ha|]. split; [reflexivity|]. split; [reflexivity|].
  split; [reflexivity|]. split; [reflexivity|]. split; [exact Hr|].
  destruct (proj1 (X10_static_file_served "app" _ Sample.world_with_stylesheet
                     (Sample.request "GET" "/static/style.css") "style.css"
                     Ha eq_refl eq_refl eq_refl eq_refl) _ Hr) as (_ & _ & Hd).
  rewrite Hd. reflexivity.
Defined.


